(** * Token ledger of [src/components/TokenManagement.tsx]

    A shallow embedding of the token-management component: the account
    read ([userTokens] query), the transaction listing ([transactions]
    query), the mutation function that forwards a proposal to the
    [update-user-tokens] edge function, and the two handlers that build
    proposals ([handleStake], [handleClaimRewards]).

    The Supabase store is explicit state ([Backend]); every operation of
    the component takes the store and returns the new one. *)

From Stdlib Require Import Floats ZArith Lia.
From stdpp Require Import gmap strings pretty list sorting.

Local Open Scope string_scope.

(** ** Data model *)

(** A TypeScript [number] is an IEEE-754 binary64 value. *)
Definition number : Set := float.

(** [!x] on a number: true for [NaN], [+0] and [-0]. *)
Definition falsy (x : number) : bool := PrimFloat.is_nan x || PrimFloat.is_zero x.

(** [transaction_type: 'earn' | 'spend' | 'stake' | 'unstake'] *)
Inductive TransactionType : Set := earn | spend | stake | unstake.

Definition TransactionType_eqb (a b : TransactionType) : bool :=
  match a, b with
  | earn, earn | spend, spend | stake, stake | unstake, unstake => true
  | _, _ => false
  end.

(** [interface TokenTransaction].  [created_at] is a [timestamptz] column:
    the client receives its ISO rendering, the store orders by the
    instant, kept here as microseconds since the epoch. *)
Record TokenTransaction : Set := {
  tx_id : string;
  transaction_type : TransactionType;
  amount : number;
  source : string;
  description : option string;
  created_at : Z
}.

(** [interface UserTokens] *)
Record UserTokens : Set := {
  ut_id : string;
  balance : number;
  total_earned : number;
  total_spent : number
}.

(** The authenticated user of [useAuth()]; only [user.id] is read. *)
Record User : Set := { id : string }.

(** [data] of a [useQuery]: [undefined] until the first fetch settles,
    [null] when the query function returned [null], a value otherwise. *)
Inductive QueryData (A : Type) : Type :=
  | data_undefined
  | data_null
  | data_value (a : A).
Arguments data_undefined {A}.
Arguments data_null {A}.
Arguments data_value {A} a.

(** ** The Supabase store *)

(** A row of [token_transactions]: the entry and its [user_id] column. *)
Record token_transactions_row : Set := {
  user_id : string;
  entry : TokenTransaction
}.

(** [user_tokens] holds one row per [user_id] (a unique key);
    [token_transactions] is kept in insertion order, newest last.
    [staked_amount] is the counter of funds staked and not yet unstaked
    that the processor of section 4.3 of the specification keeps beside
    the balance; the component never reads it.  [now] is the clock that
    stamps [created_at], [next_id] feeds the [id] column defaults. *)
Record Backend : Type := {
  user_tokens : gmap string UserTokens;
  token_transactions : list token_transactions_row;
  staked_amount : gmap string number;
  now : Z;
  next_id : nat
}.

(** Typed rejections of the transaction processor. *)
Inductive Rejection : Set :=
  | InvalidAmount
  | InsufficientBalance
  | BelowMinimumStake
  | ExceedsStakedAmount.

(** The [error] objects of the Supabase client. *)
Record PostgrestError : Set := { code : string; pg_message : string }.
Record FunctionsError : Set := { reason : Rejection; fn_message : string }.

(** The [{ data, error }] pair of a Supabase call: exactly one is set. *)
Inductive Response (E A : Type) : Type :=
  | Data (data : A)
  | Failure (error : E).
Arguments Data {E A} data.
Arguments Failure {E A} error.

(** What a query or mutation function throws. *)
Inductive Exception : Set :=
  | Error (message : string)
  | PostgrestFailure (e : PostgrestError)
  | FunctionsFailure (e : FunctionsError).

(** A settled promise. *)
Inductive Settled (A : Type) : Type :=
  | Ok (value : A)
  | Throw (e : Exception).
Arguments Ok {A} value.
Arguments Throw {A} e.

(** [error.message] *)
Definition message_of (e : Exception) : string :=
  match e with
  | Error m => m
  | PostgrestFailure e => pg_message e
  | FunctionsFailure e => fn_message e
  end.

(** The typed reason an exception stands for: the mutation function
    throws [new Error('Insufficient balance')] itself, the edge function
    reports the others. *)
Definition rejection_of (e : Exception) : option Rejection :=
  match e with
  | Error m => if String.eqb m "Insufficient balance" then Some InsufficientBalance else None
  | PostgrestFailure _ => None
  | FunctionsFailure e => Some (reason e)
  end.

(** The identifier the store gives a new row (a column default). *)
Definition fresh_id (st : Backend) : string := pretty (next_id st).

(** [.from('user_tokens').select('*').eq('user_id', uid).single()]:
    [PGRST116] when no row matches. *)
Definition select_user_tokens (uid : string) (st : Backend)
  : Response PostgrestError UserTokens :=
  match user_tokens st !! uid with
  | Some r => Data r
  | None => Failure {| code := "PGRST116"; pg_message := "JSON object requested, multiple (or no) rows returned" |}
  end.

(** [.from('user_tokens').insert({ user_id, balance, total_earned,
    total_spent }).select().single()]: the key is unique, a second row
    for the same user is refused ([23505]). *)
Definition insert_user_tokens (uid : string) (b e s : number) (st : Backend)
  : Response PostgrestError UserTokens * Backend :=
  match user_tokens st !! uid with
  | Some _ =>
      (Failure {| code := "23505"; pg_message := "duplicate key value violates unique constraint" |}, st)
  | None =>
      let r := {| ut_id := fresh_id st; balance := b; total_earned := e; total_spent := s |} in
      (Data r,
       {| user_tokens := <[uid := r]> (user_tokens st);
          token_transactions := token_transactions st;
          staked_amount := staked_amount st;
          now := now st;
          next_id := S (next_id st) |})
  end.

(** ** The queries *)

(** [queryFn] of the ['user-tokens'] query (lines 39-69). *)
Definition userTokens_queryFn (user : option User) (st : Backend)
  : Settled (option UserTokens) * Backend :=
  match user with
  | None => (Ok None, st)
  | Some u =>
      match select_user_tokens (id u) st with
      | Failure error =>
          if String.eqb (code error) "PGRST116" then
            let '(inserted, st') :=
              insert_user_tokens (id u) 1000%float 1000%float 0%float st in
            match inserted with
            | Failure insertError => (Throw (PostgrestFailure insertError), st')
            | Data newData => (Ok (Some newData), st')
            end
          else (Throw (PostgrestFailure error), st)
      | Data data => (Ok (Some data), st)
      end
  end.

(** [.order('created_at', { ascending: false })]: the rows come back
    newest first.  The query names no second key, so the store is free
    to return rows of equal [created_at] in any order. *)
Definition newest_first (a b : token_transactions_row) : Prop :=
  (created_at (entry b) <= created_at (entry a))%Z.

Definition ordered_by_created_at_desc (rows out : list token_transactions_row) : Prop :=
  out ≡ₚ rows ∧ StronglySorted newest_first out.

(** [.eq('user_id', uid)] on [token_transactions]. *)
Definition rows_of (uid : string) (st : Backend) : list token_transactions_row :=
  filter (λ r, user_id r = uid) (token_transactions st).

(** [queryFn] of the ['token-transactions'] query (lines 75-86), as the
    relation between the store and the pages the query may settle to. *)
Inductive transactions_queryFn : option User → Backend → Settled (list TokenTransaction) → Prop :=
  | transactions_no_user st :
      transactions_queryFn None st (Ok [])
  | transactions_page u st sorted :
      ordered_by_created_at_desc (rows_of (id u) st) sorted →
      transactions_queryFn (Some u) st (Ok (entry <$> take 20 sorted)).

#[global] Instance newest_first_dec a b : Decision (newest_first a b).
Proof. unfold newest_first. apply _. Defined.

(** One way for the store to answer: a merge sort of the matching rows. *)
Definition transactions_page_sorted (u : User) (st : Backend) : list TokenTransaction :=
  entry <$> take 20 (merge_sort newest_first (rows_of (id u) st)).

(** ** The mutation *)

(** The four fields [mutate] is called with. *)
Record MutationVariables : Set := {
  var_amount : number;
  var_type : TransactionType;
  var_source : string;
  var_description : string
}.

(** The [body] of [supabase.functions.invoke('update-user-tokens', ...)]. *)
Record InvokeBody : Set := {
  p_user_id : string;
  p_amount : number;
  p_transaction_type : TransactionType;
  p_source : string;
  p_description : string;
  p_reference_id : option string
}.

Record Toast : Set := {
  title : string;
  toast_description : string;
  variant : option string
}.

(** What the component holds between renders: the signed-in user, the
    cached ['user-tokens'] data, the stake input, the toasts shown and
    the query keys invalidated so far. *)
Record Component : Type := {
  user : option User;
  userTokens : QueryData UserTokens;
  stakeAmount : string;
  toasts : list Toast;
  invalidated : list string
}.

Definition toast (t : Toast) (c : Component) : Component :=
  {| user := user c; userTokens := userTokens c; stakeAmount := stakeAmount c;
     toasts := toasts c ++ [t]; invalidated := invalidated c |}.

Definition invalidateQueries (key : string) (c : Component) : Component :=
  {| user := user c; userTokens := userTokens c; stakeAmount := stakeAmount c;
     toasts := toasts c; invalidated := invalidated c ++ [key] |}.

Definition setStakeAmount (s : string) (c : Component) : Component :=
  {| user := user c; userTokens := userTokens c; stakeAmount := s;
     toasts := toasts c; invalidated := invalidated c |}.

Section Component.

(** [supabase.functions.invoke('update-user-tokens', { body })]: the
    edge function runs against the store and answers [{ data, error }]. *)
Variable edge_function : InvokeBody → Backend → Response FunctionsError UserTokens * Backend.

(** The built-ins [parseFloat] and the number-to-string conversion of a
    template literal. *)
Variable parseFloat : string → number.
Variable number_to_string : number → string.

(** [(type === 'spend' || type === 'stake') && userTokens &&
    userTokens.balance < amount] (line 100). *)
Definition balance_check (userTokens : QueryData UserTokens) (v : MutationVariables) : bool :=
  (TransactionType_eqb (var_type v) spend || TransactionType_eqb (var_type v) stake)
  && match userTokens with
     | data_value t => (balance t <? var_amount v)%float
     | data_null | data_undefined => false
     end.

Definition invoke_body (u : User) (v : MutationVariables) : InvokeBody :=
  {| p_user_id := id u;
     p_amount := var_amount v;
     p_transaction_type := var_type v;
     p_source := var_source v;
     p_description := var_description v;
     p_reference_id := None |}.

(** [if (error) throw error; return data] *)
Definition throw_on_error {A} (r : Response FunctionsError A * Backend) : Settled A * Backend :=
  match r with
  | (Failure error, st) => (Throw (FunctionsFailure error), st)
  | (Data data, st) => (Ok data, st)
  end.

(** [mutationFn] of [updateTokensMutation] (lines 91-118). *)
Definition mutationFn (user : option User) (userTokens : QueryData UserTokens)
    (v : MutationVariables) (st : Backend) : Settled UserTokens * Backend :=
  match user with
  | None => (Throw (Error "Not authenticated"), st)
  | Some u =>
      if balance_check userTokens v
      then (Throw (Error "Insufficient balance"), st)
      else throw_on_error (edge_function (invoke_body u v) st)
  end.

(** [updateTokensMutation.mutate(variables, { onSuccess })] with the
    mutation's own [onSuccess] and [onError] (lines 119-130). *)
Definition mutate (v : MutationVariables) (onSuccess : Component → Component)
    (c : Component) (st : Backend) : Component * Backend :=
  match mutationFn (user c) (userTokens c) v st with
  | (Ok _, st') =>
      (onSuccess (invalidateQueries "token-transactions" (invalidateQueries "user-tokens" c)), st')
  | (Throw error, st') =>
      (toast {| title := "Error";
                toast_description :=
                  if String.eqb (message_of error) "" then "Failed to update tokens"
                  else message_of error;
                variant := Some "destructive" |} c,
       st')
  end.

(** [handleStake] (lines 133-167). *)
Definition handleStake (c : Component) (st : Backend) : Component * Backend :=
  let amount := parseFloat (stakeAmount c) in
  if falsy amount || (amount <=? 0)%float then
    (toast {| title := "Invalid Amount";
              toast_description := "Please enter a valid stake amount";
              variant := Some "destructive" |} c, st)
  else if (amount <? 100)%float then
    (toast {| title := "Minimum Stake Required";
              toast_description := "Minimum stake amount is 100 VDO tokens";
              variant := Some "destructive" |} c, st)
  else
    mutate {| var_amount := amount;
              var_type := stake;
              var_source := "staking";
              var_description := "Staked " ++ number_to_string amount ++ " VDO tokens" |}
           (λ c', setStakeAmount ""
                    (toast {| title := "Tokens Staked!";
                              toast_description :=
                                "Successfully staked " ++ number_to_string amount ++ " VDO tokens";
                              variant := None |} c'))
           c st.

(** [handleClaimRewards] (lines 169-185). *)
Definition handleClaimRewards (c : Component) (st : Backend) : Component * Backend :=
  let rewardAmount := 100%float in
  mutate {| var_amount := rewardAmount;
            var_type := earn;
            var_source := "daily_reward";
            var_description := "Daily login reward" |}
         (toast {| title := "Rewards Claimed!";
                   toast_description :=
                     "You earned " ++ number_to_string rewardAmount ++ " VDO tokens";
                   variant := None |})
         c st.

End Component.

(** ** The transaction processor behind [update-user-tokens]

    The component only calls the edge function [update-user-tokens]; the
    function's own code is not in [src/].  The definitions of this part
    stand for it and follow sections 4.1 to 4.3 of the specification. *)

(** Modelled from the spec: the amount validation of the missing edge
    function [update-user-tokens], step 1 of section 4.3: [amount] must
    be a finite number [> 0]. *)
Definition valid_amount (a : number) : bool :=
  PrimFloat.is_finite a && (0 <? a)%float.

Module AccountStore.

(** Modelled from the spec: the account the missing edge function
    creates for a user without one, the starting grant of section 4.1:
    balance = totalEarned = 1000 and totalSpent = 0. *)
Definition starting_grant (st : Backend) : UserTokens :=
  {| ut_id := fresh_id st;
     balance := 1000%float;
     total_earned := 1000%float;
     total_spent := 0%float |}.

(** Modelled from the spec: the account fetch of the missing edge
    function, [get(userId)] of section 4.1: the existing account, or a
    new one with the starting grant. *)
Definition get (uid : string) (st : Backend) : UserTokens * Backend :=
  match user_tokens st !! uid with
  | Some acct => (acct, st)
  | None =>
      (starting_grant st,
       {| user_tokens := <[uid := starting_grant st]> (user_tokens st);
          token_transactions := token_transactions st;
          staked_amount := staked_amount st;
          now := now st;
          next_id := S (next_id st) |})
  end.

(** Modelled from the spec: the staked-amount counter the missing edge
    function keeps (section 4.3), zero for an account that never
    staked. *)
Definition staked (uid : string) (st : Backend) : number :=
  default 0%float (staked_amount st !! uid).

(** Modelled from the spec: what the missing edge function does to the
    three fields of the account, the effect table of section 4.3. *)
Definition effect (ty : TransactionType) (a : number) (acct : UserTokens) : UserTokens :=
  match ty with
  | earn =>
      {| ut_id := ut_id acct;
         balance := (balance acct + a)%float;
         total_earned := (total_earned acct + a)%float;
         total_spent := total_spent acct |}
  | spend | stake =>
      {| ut_id := ut_id acct;
         balance := (balance acct - a)%float;
         total_earned := total_earned acct;
         total_spent := (total_spent acct + a)%float |}
  | unstake =>
      {| ut_id := ut_id acct;
         balance := (balance acct + a)%float;
         total_earned := total_earned acct;
         total_spent := (total_spent acct - a)%float |}
  end.

(** Modelled from the spec: what the missing edge function does to the
    staked-amount counter, the last column of the effect table of
    section 4.3. *)
Definition staked_effect (ty : TransactionType) (a s : number) : number :=
  match ty with
  | stake => (s + a)%float
  | unstake => (s - a)%float
  | earn | spend => s
  end.

(** Modelled from the spec: the account update of the missing edge
    function, [apply(userId, delta)] of section 4.1 with the deltas of a
    transaction of type [ty] and amount [a]. *)
Definition apply (uid : string) (ty : TransactionType) (a : number)
    (acct : UserTokens) (st : Backend) : UserTokens * Backend :=
  (effect ty a acct,
   {| user_tokens := <[uid := effect ty a acct]> (user_tokens st);
      token_transactions := token_transactions st;
      staked_amount := <[uid := staked_effect ty a (staked uid st)]> (staked_amount st);
      now := now st;
      next_id := next_id st |}).

End AccountStore.

Module Ledger.

(** Modelled from the spec: the ledger write of the missing edge
    function, [append(userId, transaction)] of section 4.2: one new
    entry after the existing ones, stamped by the clock. *)
Definition append (uid : string) (ty : TransactionType) (a : number)
    (src : string) (desc : option string) (st : Backend) : Backend :=
  {| user_tokens := user_tokens st;
     token_transactions :=
       token_transactions st ++
       [ {| user_id := uid;
            entry := {| tx_id := fresh_id st;
                        transaction_type := ty;
                        amount := a;
                        source := src;
                        description := desc;
                        created_at := now st |} |} ];
     staked_amount := staked_amount st;
     now := now st;
     next_id := S (next_id st) |}.

End Ledger.

Module Processor.

(** Modelled from the spec: the body of the missing edge function
    [update-user-tokens], [propose(userId, type, amount, source,
    description)] of section 4.3: the five validation steps in order,
    the first failure wins and leaves the store as it was; on acceptance
    the account is updated and one ledger entry is appended. *)
Definition propose (uid : string) (ty : TransactionType) (a : number)
    (src : string) (desc : option string) (st : Backend)
  : (Rejection + UserTokens) * Backend :=
  if negb (valid_amount a) then (inl InvalidAmount, st)
  else
    let '(acct, st1) := AccountStore.get uid st in
    if (TransactionType_eqb ty spend || TransactionType_eqb ty stake)
       && (balance acct <? a)%float
    then (inl InsufficientBalance, st)
    else if TransactionType_eqb ty stake && (a <? 100)%float
    then (inl BelowMinimumStake, st)
    else if TransactionType_eqb ty unstake && (AccountStore.staked uid st1 <? a)%float
    then (inl ExceedsStakedAmount, st)
    else
      let '(acct', st2) := AccountStore.apply uid ty a acct st1 in
      (inr acct', Ledger.append uid ty a src desc st2).

(** Modelled from the spec: the message the missing edge function
    attaches to a typed rejection, its name in the taxonomy of section
    7. *)
Definition rejection_message (r : Rejection) : string :=
  match r with
  | InvalidAmount => "InvalidAmount"
  | InsufficientBalance => "InsufficientBalance"
  | BelowMinimumStake => "BelowMinimumStake"
  | ExceedsStakedAmount => "ExceedsStakedAmount"
  end.

(** Modelled from the spec: the missing edge function
    [update-user-tokens] as the component calls it, [propose] on the
    fields of the request body. *)
Definition update_user_tokens (body : InvokeBody) (st : Backend)
  : Response FunctionsError UserTokens * Backend :=
  match propose (p_user_id body) (p_transaction_type body) (p_amount body)
                (p_source body) (Some (p_description body)) st with
  | (inl r, st') => (Failure {| reason := r; fn_message := rejection_message r |}, st')
  | (inr acct, st') => (Data acct, st')
  end.

End Processor.

(** The mutation function of the component run against that processor:
    [proposeTransaction] of section 6 of the specification. *)
Definition proposeTransaction : option User → QueryData UserTokens → MutationVariables →
    Backend → Settled UserTokens * Backend :=
  mutationFn Processor.update_user_tokens.

(** The account a user sees through the read: the stored row, or the
    starting grant the first read would create. *)
Definition account_of (uid : string) (st : Backend) : UserTokens :=
  fst (AccountStore.get uid st).


(** ** Outcomes of a proposal *)

(** The proposal settled with an error that stands for the reason [r]. *)
Definition rejected_with (r : Rejection) (res : Settled UserTokens * Backend) : Prop :=
  ∃ e st', res = (Throw e, st') ∧ rejection_of e = Some r.


(** [type === 'spend' || type === 'stake'] *)
Definition is_debit (ty : TransactionType) : bool :=
  TransactionType_eqb ty spend || TransactionType_eqb ty stake.

(** The store after the processor accepted a proposal: the account
    updated, then the ledger entry appended. *)
Definition committed (uid : string) (ty : TransactionType) (a : number)
    (src : string) (desc : option string) (st : Backend) : Backend :=
  Ledger.append uid ty a src desc
    (snd (AccountStore.apply uid ty a (account_of uid st) (snd (AccountStore.get uid st)))).

Definition proposal (ty : TransactionType) (a : number) : MutationVariables :=
  {| var_amount := a; var_type := ty; var_source := "test"; var_description := "" |}.

Definition stake_of (a : number) (src desc : string) : MutationVariables :=
  {| var_amount := a; var_type := stake; var_source := src; var_description := desc |}.


(** ** Order of a page *)

(** The order a page of transactions is in: newest first. *)
Definition newest_entry_first (a b : TokenTransaction) : Prop :=
  (created_at b <= created_at a)%Z.

(** [x] entered the ledger before [y]. *)
Definition inserted_before (st : Backend) (x y : TokenTransaction) : Prop :=
  ∃ i j, i < j
         ∧ entry <$> token_transactions st !! i = Some x
         ∧ entry <$> token_transactions st !! j = Some y.

(** Entries of equal [created_at] appear in the order they entered the
    ledger. *)
Definition ties_in_insertion_order (st : Backend) (page : list TokenTransaction) : Prop :=
  ∀ i j x y, i < j → page !! i = Some x → page !! j = Some y →
             created_at x = created_at y → inserted_before st x y.

(** ** Sample data *)

Definition alice : User := {| id := "alice" |}.

Definition empty_store : Backend :=
  {| user_tokens := ∅; token_transactions := []; staked_amount := ∅; now := 0; next_id := 0 |}.

Definition snapshot (b : number) : UserTokens :=
  {| ut_id := "0"; balance := b; total_earned := b; total_spent := 0%float |}.

(** A store where alice holds [b] tokens. *)
Definition store_with_balance (b : number) : Backend :=
  {| user_tokens := {[ "alice" := snapshot b ]};
     token_transactions := [];
     staked_amount := ∅;
     now := 0;
     next_id := 1 |}.


(** A component where alice is signed in and nothing is cached yet. *)
Definition fresh_component : Component :=
  {| user := Some alice; userTokens := data_undefined; stakeAmount := "";
     toasts := []; invalidated := [] |}.

(** Two entries of alice stamped with the same instant. *)
Definition first_entry : TokenTransaction :=
  {| tx_id := "1"; transaction_type := earn; amount := 100%float;
     source := "daily_reward"; description := Some "Daily login reward"; created_at := 7 |}.

Definition second_entry : TokenTransaction :=
  {| tx_id := "2"; transaction_type := earn; amount := 100%float;
     source := "daily_reward"; description := Some "Daily login reward"; created_at := 7 |}.

Definition store_with_tie : Backend :=
  {| user_tokens := {[ "alice" := snapshot 1200%float ]};
     token_transactions :=
       [ {| user_id := "alice"; entry := first_entry |};
         {| user_id := "alice"; entry := second_entry |} ];
     staked_amount := ∅;
     now := 7;
     next_id := 3 |}.

(** ** Rendering *)

(** The string a transaction type is written as. *)
Definition type_name (ty : TransactionType) : string :=
  match ty with
  | earn => "earn"
  | spend => "spend"
  | stake => "stake"
  | unstake => "unstake"
  end.

(** A rendered icon: the component and its [className]. *)
Record Icon : Set := { icon : string; className : string }.

(** [getTransactionIcon] (lines 187-195). *)
Definition getTransactionIcon (type : string) : Icon :=
  if String.eqb type "earn" then {| icon := "ArrowUpRight"; className := "h-4 w-4 text-green-600" |}
  else if String.eqb type "spend" then {| icon := "ArrowDownRight"; className := "h-4 w-4 text-red-600" |}
  else if String.eqb type "stake" then {| icon := "TrendingUp"; className := "h-4 w-4 text-blue-600" |}
  else if String.eqb type "unstake" then {| icon := "ArrowDownRight"; className := "h-4 w-4 text-orange-600" |}
  else {| icon := "Coins"; className := "h-4 w-4" |}.

(** [getTransactionColor] (lines 197-205). *)
Definition getTransactionColor (type : string) : string :=
  if String.eqb type "earn" then "text-green-600"
  else if String.eqb type "spend" then "text-red-600"
  else if String.eqb type "stake" then "text-blue-600"
  else if String.eqb type "unstake" then "text-orange-600"
  else "text-gray-600".

(** [transaction.transaction_type === 'earn' ? '+' : '-'] (line 350). *)
Definition amount_prefix (t : TokenTransaction) : string :=
  if String.eqb (type_name (transaction_type t)) "earn" then "+" else "-".

(** The toast of the mutation's [onError] (lines 123-129). *)
Definition error_toast (error : Exception) : Toast :=
  {| title := "Error";
     toast_description :=
       if String.eqb (message_of error) "" then "Failed to update tokens"
       else message_of error;
     variant := Some "destructive" |}.

(** What [handleClaimRewards] passes to [mutate]. *)
Definition daily_reward : MutationVariables :=
  {| var_amount := 100%float;
     var_type := earn;
     var_source := "daily_reward";
     var_description := "Daily login reward" |}.

Section Render.

Variable parseFloat : string → number.

(** The [disabled] attribute of the stake button (line 410):
    [!stakeAmount || parseFloat(stakeAmount) < 100 ||
     updateTokensMutation.isPending || !userTokens ||
     userTokens.balance < parseFloat(stakeAmount || '0')]. *)
Definition stake_button_disabled (isPending : bool) (c : Component) : bool :=
  String.eqb (stakeAmount c) ""
  || (parseFloat (stakeAmount c) <? 100)%float
  || isPending
  || match userTokens c with
     | data_value t =>
         (balance t <? parseFloat (if String.eqb (stakeAmount c) "" then "0" else stakeAmount c))%float
     | data_null | data_undefined => true
     end.

End Render.

(** A later entry of alice, a stake. *)
Definition stake_entry : TokenTransaction :=
  {| tx_id := "3"; transaction_type := stake; amount := 200%float;
     source := "staking"; description := None; created_at := 9 |}.

(** A store where alice has two entries with different instants, and
    bob one. *)
Definition store_with_history : Backend :=
  {| user_tokens := {[ "alice" := snapshot 1200%float ]};
     token_transactions :=
       [ {| user_id := "alice"; entry := first_entry |};
         {| user_id := "bob"; entry := second_entry |};
         {| user_id := "alice"; entry := stake_entry |} ];
     staked_amount := ∅;
     now := 9;
     next_id := 4 |}.

(** A component where alice typed 150 and her snapshot of 1000 tokens is
    cached. *)
Definition staking_component : Component :=
  {| user := Some alice; userTokens := data_value (snapshot 1000%float);
     stakeAmount := "150"; toasts := []; invalidated := [] |}.

(** A component with nobody signed in. *)
Definition anonymous_component : Component :=
  {| user := None; userTokens := data_null; stakeAmount := "150";
     toasts := []; invalidated := [] |}.

(** * Theorems *)

(** ** The balance check of the mutation function *)

Section MutationFacts.

Variable edge_function : InvokeBody → Backend → Response FunctionsError UserTokens * Backend.

Lemma balance_check_spec (userTokens : QueryData UserTokens) (v : MutationVariables) :
  balance_check userTokens v = true ↔
  (var_type v = spend ∨ var_type v = stake) ∧
  ∃ t, userTokens = data_value t ∧ (balance t <? var_amount v)%float = true.
Proof.
  unfold balance_check. split.
  - intros H. apply andb_true_iff in H as [Hty Hlt]. split.
    + destruct (var_type v); simpl in Hty; auto; discriminate.
    + destruct userTokens as [| |t]; try discriminate. eauto.
  - intros [Hty (t & -> & Hlt)]. rewrite Hlt.
    destruct Hty as [-> | ->]; reflexivity.
Qed.

Lemma mutationFn_forwards (u : User) (userTokens : QueryData UserTokens)
    (v : MutationVariables) (st : Backend) :
  balance_check userTokens v = false →
  mutationFn edge_function (Some u) userTokens v st
  = throw_on_error (edge_function (invoke_body u v) st).
Proof. intros H. unfold mutationFn. rewrite H. reflexivity. Qed.

Lemma mutationFn_insufficient (u : User) (userTokens : QueryData UserTokens)
    (v : MutationVariables) (st : Backend) :
  balance_check userTokens v = true →
  mutationFn edge_function (Some u) userTokens v st
  = (Throw (Error "Insufficient balance"), st).
Proof. intros H. unfold mutationFn. rewrite H. reflexivity. Qed.

(** C1: with the account snapshot [t] in the cache, a spend or stake
    whose amount exceeds [t]'s balance is rejected with
    InsufficientBalance (the error 'Insufficient balance', the store
    untouched); a spend or stake whose amount does not exceed it passes
    the check and goes to the edge function; an earn or unstake is
    never stopped by the check, whatever its amount. *)
Theorem sufficiency_check (u : User) (t : UserTokens) (v : MutationVariables) (st : Backend) :
  (var_type v = spend ∨ var_type v = stake →
     ((balance t <? var_amount v)%float = true →
        mutationFn edge_function (Some u) (data_value t) v st
          = (Throw (Error "Insufficient balance"), st)
        ∧ rejected_with InsufficientBalance
            (mutationFn edge_function (Some u) (data_value t) v st))
     ∧ ((balance t <? var_amount v)%float = false →
        mutationFn edge_function (Some u) (data_value t) v st
          = throw_on_error (edge_function (invoke_body u v) st)))
  ∧ (var_type v = earn ∨ var_type v = unstake →
       mutationFn edge_function (Some u) (data_value t) v st
         = throw_on_error (edge_function (invoke_body u v) st)).
Proof.
  split.
  - intros Hty. split; intros Hlt.
    + assert (Hc : balance_check (data_value t) v = true).
      { apply balance_check_spec. eauto. }
      rewrite (mutationFn_insufficient _ _ _ _ Hc). split; [reflexivity |].
      exists (Error "Insufficient balance"), st. split; reflexivity.
    + apply mutationFn_forwards. unfold balance_check. rewrite Hlt.
      apply andb_false_r.
  - intros Hty. apply mutationFn_forwards. unfold balance_check.
    destruct Hty as [-> | ->]; reflexivity.
Qed.

(** C10: when the cached account snapshot is [null] or [undefined],
    the balance check is skipped: a proposal of any type and any amount
    is forwarded unchanged to the edge function. *)
Theorem no_snapshot_no_check (u : User) (userTokens : QueryData UserTokens)
    (v : MutationVariables) (st : Backend) :
  userTokens = data_null ∨ userTokens = data_undefined →
  balance_check userTokens v = false
  ∧ mutationFn edge_function (Some u) userTokens v st
    = throw_on_error (edge_function (invoke_body u v) st)
  ∧ p_amount (invoke_body u v) = var_amount v
  ∧ p_transaction_type (invoke_body u v) = var_type v.
Proof.
  intros Hnone.
  assert (Hc : balance_check userTokens v = false).
  { unfold balance_check. destruct Hnone as [-> | ->]; apply andb_false_r. }
  split; [exact Hc |]. split; [| split; reflexivity].
  apply mutationFn_forwards, Hc.
Qed.

End MutationFacts.

(** The check fires on a stake of 2000 against a cached balance of 1000. *)
Lemma sufficiency_check_witness :
  mutationFn Processor.update_user_tokens (Some alice) (data_value (snapshot 1000%float))
    (proposal stake 2000%float) (store_with_balance 1000%float)
  = (Throw (Error "Insufficient balance"), store_with_balance 1000%float).
Proof.
  apply (sufficiency_check Processor.update_user_tokens alice (snapshot 1000%float)
           (proposal stake 2000%float) (store_with_balance 1000%float)).
  - right. reflexivity.
  - reflexivity.
Defined.

(** With nothing cached, a spend of 2000 reaches the edge function. *)
Lemma no_snapshot_no_check_witness :
  mutationFn Processor.update_user_tokens (Some alice) data_undefined
    (proposal spend 2000%float) (store_with_balance 1000%float)
  = throw_on_error (Processor.update_user_tokens (invoke_body alice (proposal spend 2000%float))
                      (store_with_balance 1000%float)).
Proof.
  apply (no_snapshot_no_check Processor.update_user_tokens alice data_undefined
           (proposal spend 2000%float) (store_with_balance 1000%float)).
  right. reflexivity.
Defined.

(** ** The stake handler *)

Section HandlerFacts.

Variable edge_function : InvokeBody → Backend → Response FunctionsError UserTokens * Backend.
Variable parseFloat : string → number.
Variable number_to_string : number → string.

(** The mutation function has no minimum of its own: a stake under 100
    that the cached balance covers goes to the edge function. *)
Lemma mutationFn_forwards_small_stake (u : User) (t : UserTokens) (a : number)
    (src desc : string) (st : Backend) :
  (balance t <? a)%float = false →
  mutationFn edge_function (Some u) (data_value t) (stake_of a src desc) st
  = throw_on_error (edge_function (invoke_body u (stake_of a src desc)) st).
Proof.
  intros Hlt. apply mutationFn_forwards. unfold balance_check. simpl.
  exact Hlt.
Qed.

(** [handleStake] stops an input that parses to [NaN], zero or a
    negative number with the toast 'Invalid Amount'; nothing is sent. *)
Lemma handleStake_invalid_amount (c : Component) (st : Backend) :
  falsy (parseFloat (stakeAmount c)) || (parseFloat (stakeAmount c) <=? 0)%float = true →
  handleStake edge_function parseFloat number_to_string c st
  = (toast {| title := "Invalid Amount";
              toast_description := "Please enter a valid stake amount";
              variant := Some "destructive" |} c, st).
Proof. intros H. unfold handleStake. cbv zeta. rewrite H. reflexivity. Qed.

(** [handleStake] stops a positive amount under 100 with the toast
    'Minimum Stake Required'; nothing is sent. *)
Lemma handleStake_below_minimum (c : Component) (st : Backend) :
  falsy (parseFloat (stakeAmount c)) || (parseFloat (stakeAmount c) <=? 0)%float = false →
  (parseFloat (stakeAmount c) <? 100)%float = true →
  handleStake edge_function parseFloat number_to_string c st
  = (toast {| title := "Minimum Stake Required";
              toast_description := "Minimum stake amount is 100 VDO tokens";
              variant := Some "destructive" |} c, st).
Proof. intros H1 H2. unfold handleStake. cbv zeta. rewrite H1, H2. reflexivity. Qed.

(** Any other amount becomes a stake proposal with source 'staking'. *)
Lemma handleStake_proposes (c : Component) (st : Backend) :
  falsy (parseFloat (stakeAmount c)) || (parseFloat (stakeAmount c) <=? 0)%float = false →
  (parseFloat (stakeAmount c) <? 100)%float = false →
  ∃ desc onSuccess,
    handleStake edge_function parseFloat number_to_string c st
    = mutate edge_function (stake_of (parseFloat (stakeAmount c)) "staking" desc) onSuccess c st.
Proof.
  intros H1 H2. unfold handleStake. cbv zeta. rewrite H1, H2.
  eexists _, _. reflexivity.
Qed.

(** [mutate] changes the store exactly as the mutation function does. *)
Lemma mutate_store (v : MutationVariables) (onSuccess : Component → Component)
    (c : Component) (st : Backend) :
  snd (mutate edge_function v onSuccess c st)
  = snd (mutationFn edge_function (user c) (userTokens c) v st).
Proof.
  unfold mutate.
  destruct (mutationFn edge_function (user c) (userTokens c) v st) as [[acct | e] st'];
    reflexivity.
Qed.

End HandlerFacts.

(** ** The account read *)

Lemma userTokens_queryFn_existing (u : User) (acct : UserTokens) (st : Backend) :
  user_tokens st !! id u = Some acct →
  userTokens_queryFn (Some u) st = (Ok (Some acct), st).
Proof.
  intros H. unfold userTokens_queryFn, select_user_tokens. rewrite H. reflexivity.
Qed.

Lemma userTokens_queryFn_absent (u : User) (st : Backend) :
  user_tokens st !! id u = None →
  userTokens_queryFn (Some u) st
  = (Ok (Some (AccountStore.starting_grant st)), snd (AccountStore.get (id u) st)).
Proof.
  intros H.
  unfold userTokens_queryFn, select_user_tokens, insert_user_tokens, AccountStore.get.
  rewrite H. reflexivity.
Qed.

(** The read of the component is the [get] of the account store. *)
Lemma userTokens_queryFn_get (u : User) (st : Backend) :
  userTokens_queryFn (Some u) st
  = (Ok (Some (fst (AccountStore.get (id u) st))), snd (AccountStore.get (id u) st)).
Proof.
  destruct (user_tokens st !! id u) as [acct|] eqn:H.
  - rewrite (userTokens_queryFn_existing _ _ _ H).
    unfold AccountStore.get. rewrite H. reflexivity.
  - rewrite (userTokens_queryFn_absent _ _ H).
    unfold AccountStore.get. rewrite H. reflexivity.
Qed.

(** C2: for a signed-in user the account read returns the stored account
    and leaves the store alone when there is one; when there is none it
    adds exactly one row, for that user, with balance = 1000,
    total_earned = 1000 and total_spent = 0, returns that row, and a
    second read returns the same row without creating another. *)
Theorem account_read (u : User) (st : Backend) :
  (∀ acct, user_tokens st !! id u = Some acct →
     userTokens_queryFn (Some u) st = (Ok (Some acct), st))
  ∧ (user_tokens st !! id u = None →
     ∃ acct st',
       userTokens_queryFn (Some u) st = (Ok (Some acct), st')
       ∧ balance acct = 1000%float
       ∧ total_earned acct = 1000%float
       ∧ total_spent acct = 0%float
       ∧ user_tokens st' = <[id u := acct]> (user_tokens st)
       ∧ size (user_tokens st') = S (size (user_tokens st))
       ∧ token_transactions st' = token_transactions st
       ∧ staked_amount st' = staked_amount st
       ∧ userTokens_queryFn (Some u) st' = (Ok (Some acct), st')).
Proof.
  split.
  - intros acct H. exact (userTokens_queryFn_existing u acct st H).
  - intros H.
    exists (AccountStore.starting_grant st), (snd (AccountStore.get (id u) st)).
    split; [exact (userTokens_queryFn_absent u st H) |].
    unfold AccountStore.get. rewrite H. simpl.
    repeat split.
    + apply map_size_insert_None, H.
    + apply userTokens_queryFn_existing. simpl. apply lookup_insert_eq.
Qed.

(** The first read of alice on an empty store creates her account. *)
Lemma account_read_witness :
  ∃ acct st',
    userTokens_queryFn (Some alice) empty_store = (Ok (Some acct), st')
    ∧ balance acct = 1000%float
    ∧ total_earned acct = 1000%float
    ∧ total_spent acct = 0%float
    ∧ user_tokens st' = <[id alice := acct]> (user_tokens empty_store)
    ∧ size (user_tokens st') = S (size (user_tokens empty_store))
    ∧ token_transactions st' = token_transactions empty_store
    ∧ staked_amount st' = staked_amount empty_store
    ∧ userTokens_queryFn (Some alice) st' = (Ok (Some acct), st').
Proof.
  apply (account_read alice empty_store). reflexivity.
Defined.

(** ** The processor *)

Lemma get_keeps_ledger (uid : string) (st : Backend) :
  token_transactions (snd (AccountStore.get uid st)) = token_transactions st.
Proof. unfold AccountStore.get. destruct (user_tokens st !! uid); reflexivity. Qed.

Lemma get_keeps_staked (uid : string) (st : Backend) :
  AccountStore.staked uid (snd (AccountStore.get uid st)) = AccountStore.staked uid st.
Proof. unfold AccountStore.get. destruct (user_tokens st !! uid); reflexivity. Qed.

(** Name the result of [get uid st] and restate the facts about the
    account and the staked counter in terms of it. *)
Ltac open_get uid st :=
  let acct := fresh "acct" in
  let st1 := fresh "st1" in
  let Hg := fresh "Hg" in
  let Hs := fresh "Hs" in
  pose proof (get_keeps_staked uid st) as Hs;
  unfold account_of in *;
  destruct (AccountStore.get uid st) as [acct st1] eqn:Hg;
  simpl in *; try rewrite Hs in *.

(** The decision of [propose], one equation per step. *)
Lemma propose_invalid uid ty a src desc st :
  valid_amount a = false →
  Processor.propose uid ty a src desc st = (inl InvalidAmount, st).
Proof. intros H. unfold Processor.propose. rewrite H. reflexivity. Qed.




Lemma propose_accepts uid ty a src desc st :
  valid_amount a = true →
  is_debit ty && (balance (account_of uid st) <? a)%float = false →
  TransactionType_eqb ty stake && (a <? 100)%float = false →
  TransactionType_eqb ty unstake && (AccountStore.staked uid st <? a)%float = false →
  Processor.propose uid ty a src desc st
  = (inr (AccountStore.effect ty a (account_of uid st)), committed uid ty a src desc st).
Proof.
  intros Hv H3 H4 H5. unfold Processor.propose, committed. rewrite Hv. simpl.
  open_get uid st. fold (is_debit ty). rewrite H3, H4, H5. reflexivity.
Qed.

(** A rejection of [propose] leaves the store as it was. *)
Lemma propose_rejection_pure uid ty a src desc st r st' :
  Processor.propose uid ty a src desc st = (inl r, st') → st' = st.
Proof.
  unfold Processor.propose.
  destruct (negb (valid_amount a)); [congruence |].
  destruct (AccountStore.get uid st) as [acct st1].
  repeat match goal with
         | |- context [if ?b then _ else _] => destruct b; [congruence |]
         end.
  destruct (AccountStore.apply uid ty a acct st1). congruence.
Qed.

(** The mutation function against the processor, by outcome of
    [propose]. *)
Lemma proposeTransaction_processor_rejects u userTokens v st r st' :
  balance_check userTokens v = false →
  Processor.propose (id u) (var_type v) (var_amount v) (var_source v)
    (Some (var_description v)) st = (inl r, st') →
  proposeTransaction (Some u) userTokens v st
  = (Throw (FunctionsFailure {| reason := r; fn_message := Processor.rejection_message r |}), st').
Proof.
  intros Hc Hp. unfold proposeTransaction.
  rewrite (mutationFn_forwards _ _ _ _ _ Hc).
  unfold Processor.update_user_tokens, invoke_body. simpl. rewrite Hp. reflexivity.
Qed.

Lemma proposeTransaction_processor_accepts u userTokens v st acct st' :
  balance_check userTokens v = false →
  Processor.propose (id u) (var_type v) (var_amount v) (var_source v)
    (Some (var_description v)) st = (inr acct, st') →
  proposeTransaction (Some u) userTokens v st = (Ok acct, st').
Proof.
  intros Hc Hp. unfold proposeTransaction.
  rewrite (mutationFn_forwards _ _ _ _ _ Hc).
  unfold Processor.update_user_tokens, invoke_body. simpl. rewrite Hp. reflexivity.
Qed.

(** C6: whenever a proposal is rejected, by the mutation function itself
    or by the processor behind it, the store after it is the store
    before it: no account changes (balance, total_earned, total_spent as
    the read reports them), the ledger is the same, and the caller gets
    a reason it can tell apart. *)
Theorem rejection_purity (user : option User) (userTokens : QueryData UserTokens)
    (v : MutationVariables) (st st' : Backend) (e : Exception) :
  proposeTransaction user userTokens v st = (Throw e, st') →
  st' = st
  ∧ (∀ uid, account_of uid st' = account_of uid st)
  ∧ token_transactions st' = token_transactions st
  ∧ (e = Error "Not authenticated" ∨ ∃ r, rejection_of e = Some r).
Proof.
  intros H.
  assert (Hst : st' = st ∧ (e = Error "Not authenticated" ∨ ∃ r, rejection_of e = Some r)).
  { unfold proposeTransaction, mutationFn in H.
    destruct user as [u|].
    - destruct (balance_check userTokens v).
      + inversion H; subst. split; [reflexivity |]. right. exists InsufficientBalance. reflexivity.
      + unfold Processor.update_user_tokens in H.
        destruct (Processor.propose _ _ _ _ _ st) as [[r | acct] st1] eqn:Hp;
          simpl in H; inversion H; subst.
        split; [exact (propose_rejection_pure _ _ _ _ _ _ _ _ Hp) |].
        right. exists r. reflexivity.
    - inversion H; subst. split; [reflexivity |]. left. reflexivity. }
  destruct Hst as [-> Hr]. repeat split; auto.
Qed.

(** A spend of 2000 against a stored balance of 1000, nothing cached. *)
Lemma rejection_purity_witness :
  ∃ e st',
    proposeTransaction (Some alice) data_undefined (proposal spend 2000%float)
      (store_with_balance 1000%float) = (Throw e, st')
    ∧ st' = store_with_balance 1000%float
    ∧ token_transactions st' = token_transactions (store_with_balance 1000%float).
Proof.
  eexists _, _. split; [reflexivity |].
  pose proof (rejection_purity (Some alice) data_undefined (proposal spend 2000%float)
                (store_with_balance 1000%float) _ _ eq_refl) as (H1 & _ & H3 & _).
  split; [exact H1 | exact H3].
Defined.

(** What an accepted proposal leaves behind. *)
Lemma account_of_committed uid ty a src desc st :
  account_of uid (committed uid ty a src desc st)
  = AccountStore.effect ty a (account_of uid st).
Proof.
  unfold account_of at 1. unfold committed, AccountStore.get at 1. simpl.
  rewrite lookup_insert_eq. reflexivity.
Qed.


Lemma ledger_committed uid ty a src desc st :
  ∃ i t,
    token_transactions (committed uid ty a src desc st)
    = (token_transactions st ++
       [ {| user_id := uid;
            entry := {| tx_id := i; transaction_type := ty; amount := a;
                        source := src; description := desc; created_at := t |} |} ])%list.
Proof.
  unfold committed. simpl. rewrite get_keeps_ledger. eauto.
Qed.

(** ** The daily reward *)

(** C8: a daily-reward claim of a signed-in user is the proposal
    propose(user, earn, 100, 'daily_reward', 'Daily login reward'): the
    processor accepts it, the balance and total_earned of the account
    grow by 100, total_spent stays, and the ledger gains one entry, an
    earn of 100 with source 'daily_reward'. *)
Theorem daily_claim (number_to_string : number → string) (c : Component) (u : User)
    (st : Backend) :
  user c = Some u →
  let st' := snd (handleClaimRewards Processor.update_user_tokens number_to_string c st) in
  Processor.propose (id u) earn 100%float "daily_reward" (Some "Daily login reward") st
    = (inr (account_of (id u) st'), st')
  ∧ balance (account_of (id u) st') = (balance (account_of (id u) st) + 100)%float
  ∧ total_earned (account_of (id u) st') = (total_earned (account_of (id u) st) + 100)%float
  ∧ total_spent (account_of (id u) st') = total_spent (account_of (id u) st)
  ∧ ∃ e, token_transactions st'
         = (token_transactions st ++ [ {| user_id := id u; entry := e |} ])%list
       ∧ transaction_type e = earn
       ∧ amount e = 100%float
       ∧ source e = "daily_reward".
Proof.
  intros Hu.
  assert (Hp : Processor.propose (id u) earn 100%float "daily_reward"
                 (Some "Daily login reward") st
               = (inr (AccountStore.effect earn 100%float (account_of (id u) st)),
                  committed (id u) earn 100%float "daily_reward"
                    (Some "Daily login reward") st)).
  { apply propose_accepts; reflexivity. }
  assert (Hst : snd (handleClaimRewards Processor.update_user_tokens number_to_string c st)
                = committed (id u) earn 100%float "daily_reward"
                    (Some "Daily login reward") st).
  { unfold handleClaimRewards, mutate. rewrite Hu.
    fold proposeTransaction.
    erewrite proposeTransaction_processor_accepts; [reflexivity | | exact Hp].
    unfold balance_check. reflexivity. }
  simpl. rewrite Hst, account_of_committed.
  split; [exact Hp |]. repeat split.
  destruct (ledger_committed (id u) earn 100%float "daily_reward"
              (Some "Daily login reward") st) as (i & t & Hl).
  eexists. split; [exact Hl |]. repeat split.
Qed.

(** Alice claims the reward on her starting grant: 1000 becomes 1100. *)
Lemma daily_claim_witness :
  balance (account_of "alice"
             (snd (handleClaimRewards Processor.update_user_tokens (λ _, "100")
                     fresh_component (store_with_balance 1000%float))))
  = 1100%float.
Proof.
  pose proof (daily_claim (λ _, "100") fresh_component alice
                (store_with_balance 1000%float) eq_refl) as (_ & Hb & _).
  exact Hb.
Defined.

(** ** Validation order *)








(** C5, amended: a proposal whose amount is not a finite number > 0 is
    always rejected and the store stays as it was.  The processor checks
    the amount before anything else and answers InvalidAmount; the
    mutation function runs its balance check before calling the
    processor, so when that check fires (a spend or stake whose amount
    compares above the cached balance, as +Infinity does) the reason is
    InsufficientBalance instead. *)
Theorem invalid_amount (u : User) (userTokens : QueryData UserTokens)
    (v : MutationVariables) (st : Backend) :
  valid_amount (var_amount v) = false →
  (∀ uid ty src desc,
     Processor.propose uid ty (var_amount v) src desc st = (inl InvalidAmount, st))
  ∧ ∃ e, proposeTransaction (Some u) userTokens v st = (Throw e, st)
         ∧ (balance_check userTokens v = false → rejection_of e = Some InvalidAmount)
         ∧ (balance_check userTokens v = true → rejection_of e = Some InsufficientBalance).
Proof.
  intros Hv. split.
  - intros uid ty src desc. apply propose_invalid, Hv.
  - destruct (balance_check userTokens v) eqn:Hc.
    + exists (Error "Insufficient balance"). split; [| split; [discriminate | reflexivity]].
      unfold proposeTransaction. apply mutationFn_insufficient, Hc.
    + eexists. split; [| split; [| discriminate]].
      * apply (proposeTransaction_processor_rejects u userTokens v st InvalidAmount st Hc).
        apply propose_invalid, Hv.
      * reflexivity.
Qed.

(** An earn of -5 is rejected with InvalidAmount. *)
Lemma invalid_amount_witness :
  ∃ e, proposeTransaction (Some alice) (data_value (snapshot 1000%float))
         (proposal earn (-5)%float) (store_with_balance 1000%float)
       = (Throw e, store_with_balance 1000%float)
       ∧ (balance_check (data_value (snapshot 1000%float)) (proposal earn (-5)%float) = false →
          rejection_of e = Some InvalidAmount)
       ∧ (balance_check (data_value (snapshot 1000%float)) (proposal earn (-5)%float) = true →
          rejection_of e = Some InsufficientBalance).
Proof.
  apply (invalid_amount alice (data_value (snapshot 1000%float)) (proposal earn (-5)%float)
           (store_with_balance 1000%float)).
  reflexivity.
Defined.

(** C5 as stated fails: a spend of +Infinity against a cached balance
    of 1000 is stopped by the balance check of the mutation function,
    with InsufficientBalance, before the amount is looked at. *)
Lemma invalid_amount_counterexample :
  ¬ (∀ (u : User) (userTokens : QueryData UserTokens) (v : MutationVariables) (st : Backend),
       valid_amount (var_amount v) = false →
       rejected_with InvalidAmount (proposeTransaction (Some u) userTokens v st)).
Proof.
  intros H.
  destruct (H alice (data_value (snapshot 1000%float)) (proposal spend infinity)
              (store_with_balance 1000%float) eq_refl) as (e & st' & Heq & Hr).
  vm_compute in Heq. inversion Heq; subst. vm_compute in Hr. discriminate.
Qed.

(** ** The transaction listing *)

#[global] Instance newest_first_transitive : Transitive newest_first.
Proof. unfold newest_first. intros a b c Hab Hbc. lia. Qed.

#[global] Instance newest_first_total : Total newest_first.
Proof. unfold newest_first. intros a b. lia. Qed.

(** The listing always settles: the merge-sorted page is one answer. *)
Lemma transactions_queryFn_total (u : User) (st : Backend) :
  transactions_queryFn (Some u) st (Ok (transactions_page_sorted u st)).
Proof.
  unfold transactions_page_sorted. apply transactions_page. split.
  - apply merge_sort_Permutation.
  - apply StronglySorted_merge_sort; apply _.
Qed.

Lemma transactions_queryFn_inv (u : User) (st : Backend) (r : Settled (list TokenTransaction)) :
  transactions_queryFn (Some u) st r →
  ∃ sorted, ordered_by_created_at_desc (rows_of (id u) st) sorted
            ∧ r = Ok (entry <$> take 20 sorted).
Proof. intros H. inversion H; subst. eauto. Qed.

(** C7, amended: for a signed-in user the listing settles to a page, and
    every page it can settle to holds at most 20 entries (all of the
    user's entries when there are fewer), ordered by created_at
    descending, and they are the most recent ones: the user's entries
    are the page followed by entries none of which is newer than an
    entry of the page.  The order among entries of equal created_at is
    left to the store. *)
Theorem recent_transactions (u : User) (st : Backend) :
  (∃ page, transactions_queryFn (Some u) st (Ok page))
  ∧ ∀ r, transactions_queryFn (Some u) st r →
      ∃ page, r = Ok page
        ∧ (length page ≤ 20)%nat
        ∧ length page = (20 `min` length (rows_of (id u) st))%nat
        ∧ StronglySorted newest_entry_first page
        ∧ ∃ older, (page ++ older)%list ≡ₚ entry <$> rows_of (id u) st
                   ∧ ∀ x y, x ∈ page → y ∈ older → newest_entry_first x y.
Proof.
  split.
  - eexists. apply transactions_queryFn_total.
  - intros r H.
    destruct (transactions_queryFn_inv u st r H) as (sorted & [Hperm Hsorted] & ->).
    exists (entry <$> take 20 sorted). split; [reflexivity |].
    assert (Hsplit : StronglySorted newest_first (take 20 sorted ++ drop 20 sorted)).
    { rewrite take_drop. exact Hsorted. }
    apply StronglySorted_app in Hsplit as (Hcross & Htake & _).
    repeat split.
    + rewrite length_fmap, length_take. lia.
    + rewrite length_fmap, length_take, <- (Permutation_length Hperm). lia.
    + eapply StronglySorted_fmap; [| exact Htake]. auto.
    + exists (entry <$> drop 20 sorted). split.
      * rewrite <- fmap_app, take_drop, Hperm. reflexivity.
      * intros x y Hx Hy.
        apply list_elem_of_fmap in Hx as (rx & -> & Hx).
        apply list_elem_of_fmap in Hy as (ry & -> & Hy).
        exact (Hcross rx ry Hx Hy).
Qed.

(** The store may answer the tie either way round. *)
Lemma tie_either_way :
  transactions_queryFn (Some alice) store_with_tie (Ok [first_entry; second_entry])
  ∧ transactions_queryFn (Some alice) store_with_tie (Ok [second_entry; first_entry]).
Proof.
  split.
  - apply (transactions_page alice store_with_tie
             [ {| user_id := "alice"; entry := first_entry |};
               {| user_id := "alice"; entry := second_entry |} ]).
    split; [reflexivity |].
    repeat constructor; unfold newest_first; simpl; lia.
  - apply (transactions_page alice store_with_tie
             [ {| user_id := "alice"; entry := second_entry |};
               {| user_id := "alice"; entry := first_entry |} ]).
    split; [apply perm_swap |].
    repeat constructor; unfold newest_first; simpl; lia.
Qed.

(** The page that lists the later insertion first is newest-first and
    within the page size. *)
Lemma recent_transactions_witness :
  ∃ page, Ok [second_entry; first_entry] = Ok page
    ∧ (length page ≤ 20)%nat
    ∧ length page = (20 `min` length (rows_of (id alice) store_with_tie))%nat
    ∧ StronglySorted newest_entry_first page
    ∧ ∃ older, (page ++ older)%list ≡ₚ entry <$> rows_of (id alice) store_with_tie
               ∧ ∀ x y, x ∈ page → y ∈ older → newest_entry_first x y.
Proof.
  exact (proj2 (recent_transactions alice store_with_tie) _ (proj2 tie_either_way)).
Defined.

(** C7 as stated fails: with two entries of the same created_at, the
    query also admits the page that lists the later insertion first. *)
Lemma recent_transactions_counterexample :
  ¬ (∀ (u : User) (st : Backend) (page : list TokenTransaction),
       transactions_queryFn (Some u) st (Ok page) →
       (length page ≤ 20)%nat
       ∧ StronglySorted newest_entry_first page
       ∧ ties_in_insertion_order st page).
Proof.
  intros H.
  destruct (H alice store_with_tie [second_entry; first_entry] (proj2 tie_either_way))
    as (_ & _ & Hties).
  destruct (Hties 0 1 second_entry first_entry) as (i & j & Hij & Hi & Hj);
    [lia | reflexivity | reflexivity | reflexivity |].
  destruct i as [|[|i]]; destruct j as [|[|j]]; simpl in Hi, Hj;
    try lia; discriminate.
Qed.

(** * Further properties of the component *)

(** ** Comparisons of numbers *)

Lemma Prim2SF_hundred : ∃ m e, Prim2SF 100%float = S754_finite false m e.
Proof. eexists _, _. vm_compute. reflexivity. Qed.

Lemma SFcompare_antisym x y c :
  SFcompare x y = Some c → SFcompare y x = Some (CompOpp c).
Proof.
  destruct x as [[]|[]| |[] m1 e1], y as [[]|[]| |[] m2 e2]; simpl;
    intros H; inversion H; subst; clear H; try reflexivity.
  all: assert (Hm : Pos.compare_cont Eq m2 m1 = CompOpp (Pos.compare_cont Eq m1 m2))
         by apply Pos.compare_antisym.
  all: rewrite (Z.compare_antisym e1 e2), Hm.
  all: destruct (e1 ?= e2)%Z; simpl; try reflexivity.
  all: destruct (Pos.compare_cont Eq m1 m2); reflexivity.
Qed.

Lemma SFcompare_some x y :
  x ≠ S754_nan → y ≠ S754_nan → ∃ c, SFcompare x y = Some c.
Proof.
  destruct x as [[]|[]| |[] m1 e1], y as [[]|[]| |[] m2 e2]; simpl;
    intros; try congruence; eauto.
Qed.

Lemma SFcompare_refl x : x ≠ S754_nan → SFcompare x x = Some Eq.
Proof.
  destruct x as [[]|[]| |[] m e]; simpl; intros; try congruence.
  all: assert (Hm : Pos.compare_cont Eq m m = Eq) by apply Pos.compare_refl.
  all: rewrite Z.compare_refl, Hm; reflexivity.
Qed.

(** [x] is [NaN] exactly when its specification is. *)
Lemma is_nan_false x : PrimFloat.is_nan x = false ↔ Prim2SF x ≠ S754_nan.
Proof.
  unfold PrimFloat.is_nan. rewrite FloatAxioms.eqb_spec. unfold SFeqb. split.
  - intros H E. rewrite E in H. discriminate.
  - intros H. rewrite (SFcompare_refl _ H). reflexivity.
Qed.

(** Among numbers that are not [NaN], [x < y] fails exactly when
    [y <= x]. *)
Lemma not_ltb_leb x y :
  PrimFloat.is_nan x = false → PrimFloat.is_nan y = false →
  (x <? y)%float = false → (y <=? x)%float = true.
Proof.
  intros Hx%is_nan_false Hy%is_nan_false.
  rewrite FloatAxioms.ltb_spec, FloatAxioms.leb_spec. unfold SFltb, SFleb.
  destruct (SFcompare_some _ _ Hx Hy) as [c Hc].
  rewrite Hc, (SFcompare_antisym _ _ _ Hc). destruct c; simpl; congruence.
Qed.

Lemma leb_not_ltb x y : (y <=? x)%float = true → (x <? y)%float = false.
Proof.
  rewrite FloatAxioms.ltb_spec, FloatAxioms.leb_spec. unfold SFltb, SFleb.
  destruct (SFcompare (Prim2SF y) (Prim2SF x)) as [c|] eqn:Hc; [| discriminate].
  rewrite (SFcompare_antisym _ _ _ Hc). destruct c; simpl; congruence.
Qed.

Lemma leb_not_nan x y : (y <=? x)%float = true → PrimFloat.is_nan x = false.
Proof.
  rewrite FloatAxioms.leb_spec. unfold SFleb. intros H. apply is_nan_false.
  intros E. rewrite E in H.
  destruct (Prim2SF y) as [[]|[]| |[] m e]; discriminate.
Qed.

(** Zero and the negative numbers are under 100. *)
Lemma leb_zero_ltb_hundred a : (a <=? 0)%float = true → (a <? 100)%float = true.
Proof.
  rewrite FloatAxioms.leb_spec, FloatAxioms.ltb_spec.
  destruct Prim2SF_hundred as (m & e & ->).
  change (Prim2SF 0%float) with (S754_zero false).
  destruct (Prim2SF a) as [[]|[]| |[] m1 e1]; unfold SFleb, SFltb; simpl;
    intros H; try reflexivity; discriminate.
Qed.

Lemma is_zero_ltb_hundred a : PrimFloat.is_zero a = true → (a <? 100)%float = true.
Proof.
  unfold PrimFloat.is_zero. rewrite FloatAxioms.eqb_spec, FloatAxioms.ltb_spec.
  destruct Prim2SF_hundred as (m & e & ->).
  change (Prim2SF zero) with (S754_zero false).
  destruct (Prim2SF a) as [[]|[]| |[] m1 e1]; unfold SFeqb, SFltb; simpl;
    intros H; try reflexivity; discriminate.
Qed.

(** The two tests of [handleStake] together: an amount gets past both
    exactly when it is at least 100. *)
Lemma handleStake_tests (a : number) :
  (100 <=? a)%float = true ↔
  falsy a || (a <=? 0)%float = false ∧ (a <? 100)%float = false.
Proof.
  split.
  - intros H. pose proof (leb_not_ltb _ _ H) as Hlt. split; [| exact Hlt].
    unfold falsy. rewrite (leb_not_nan _ _ H). simpl.
    destruct (PrimFloat.is_zero a) eqn:Hz.
    { rewrite (is_zero_ltb_hundred _ Hz) in Hlt. discriminate. }
    destruct (a <=? 0)%float eqn:Hle; [| reflexivity].
    rewrite (leb_zero_ltb_hundred _ Hle) in Hlt. discriminate.
  - intros [Hf Hlt]. apply orb_false_iff in Hf as [Hf _].
    unfold falsy in Hf. apply orb_false_iff in Hf as [Hn _].
    apply not_ltb_leb; [exact Hn | reflexivity | exact Hlt].
Qed.

(** ** The handlers *)


Section HandlerProperties.

Variable edge_function : InvokeBody → Backend → Response FunctionsError UserTokens * Backend.
Variable parseFloat : string → number.
Variable number_to_string : number → string.

Lemma mutate_throws (v : MutationVariables) (onSuccess : Component → Component)
    (c : Component) (st st' : Backend) (e : Exception) :
  mutationFn edge_function (user c) (userTokens c) v st = (Throw e, st') →
  mutate edge_function v onSuccess c st = (toast (error_toast e) c, st').
Proof. intros H. unfold mutate. rewrite H. reflexivity. Qed.


(** X1: [handleStake] proposes a stake exactly when the parsed amount
    is at least 100 (so never for [NaN], zero or a negative number, but
    also for +Infinity); the proposal carries that amount with source
    'staking'.  In every other case it shows one destructive toast and
    leaves the store alone. *)
Theorem handleStake_validation (c : Component) (st : Backend) :
  ((100 <=? parseFloat (stakeAmount c))%float = true →
     ∃ desc onSuccess,
       handleStake edge_function parseFloat number_to_string c st
       = mutate edge_function (stake_of (parseFloat (stakeAmount c)) "staking" desc)
           onSuccess c st)
  ∧ ((100 <=? parseFloat (stakeAmount c))%float = false →
     ∃ t, handleStake edge_function parseFloat number_to_string c st = (toast t c, st)
          ∧ variant t = Some "destructive").
Proof.
  split; intros H.
  - apply handleStake_tests in H as [H1 H2]. apply handleStake_proposes; assumption.
  - destruct (falsy (parseFloat (stakeAmount c)) || (parseFloat (stakeAmount c) <=? 0)%float)
      eqn:H1.
    + eexists. split; [apply handleStake_invalid_amount; exact H1 | reflexivity].
    + destruct (parseFloat (stakeAmount c) <? 100)%float eqn:H2.
      * eexists. split; [apply handleStake_below_minimum; assumption | reflexivity].
      * assert (Hge : (100 <=? parseFloat (stakeAmount c))%float = true)
          by (apply handleStake_tests; auto).
        congruence.
Qed.

(** X2: when the stake button is enabled and the input parses to a
    number, a click goes all the way to the edge function: no mutation
    is pending, a snapshot is cached and its balance covers the amount,
    the amount is at least 100, [handleStake] shows neither of its own
    toasts, and the balance check of the mutation function does not stop
    the proposal. *)
Theorem enabled_stake_button (isPending : bool) (c : Component) (u : User) (st : Backend) :
  user c = Some u →
  stake_button_disabled parseFloat isPending c = false →
  PrimFloat.is_nan (parseFloat (stakeAmount c)) = false →
  isPending = false
  ∧ (∃ t, userTokens c = data_value t
          ∧ (balance t <? parseFloat (stakeAmount c))%float = false)
  ∧ (100 <=? parseFloat (stakeAmount c))%float = true
  ∧ ∃ desc onSuccess,
      handleStake edge_function parseFloat number_to_string c st
      = mutate edge_function (stake_of (parseFloat (stakeAmount c)) "staking" desc)
          onSuccess c st
      ∧ mutationFn edge_function (user c) (userTokens c)
          (stake_of (parseFloat (stakeAmount c)) "staking" desc) st
        = throw_on_error
            (edge_function
               (invoke_body u (stake_of (parseFloat (stakeAmount c)) "staking" desc)) st).
Proof.
  intros Hu Hd Hn. unfold stake_button_disabled in Hd.
  apply orb_false_iff in Hd as [Hd Hbal].
  apply orb_false_iff in Hd as [Hd Hpending].
  apply orb_false_iff in Hd as [Hempty Hmin].
  rewrite Hempty in Hbal.
  assert (Hge : (100 <=? parseFloat (stakeAmount c))%float = true).
  { apply not_ltb_leb; [exact Hn | reflexivity | exact Hmin]. }
  assert (Hsnap : ∃ t, userTokens c = data_value t
                       ∧ (balance t <? parseFloat (stakeAmount c))%float = false).
  { destruct (userTokens c) as [| |t]; [discriminate | discriminate | eauto]. }
  split; [exact Hpending |]. split; [exact Hsnap |]. split; [exact Hge |].
  pose proof Hge as [H1 H2]%handleStake_tests.
  destruct (handleStake_proposes edge_function parseFloat number_to_string c st H1 H2)
    as (desc & onSuccess & Hh).
  exists desc, onSuccess. split; [exact Hh |].
  rewrite Hu. apply mutationFn_forwards. unfold balance_check. simpl.
  destruct Hsnap as (t & -> & Hlt). exact Hlt.
Qed.

(** X3: with nobody signed in, neither handler changes the store,
    whatever the edge function is; a reward claim ends in the one toast
    'Error' / 'Not authenticated'. *)
Theorem handlers_need_user (c : Component) (st : Backend) :
  user c = None →
  snd (handleStake edge_function parseFloat number_to_string c st) = st
  ∧ handleClaimRewards edge_function number_to_string c st
    = (toast {| title := "Error";
                toast_description := "Not authenticated";
                variant := Some "destructive" |} c, st).
Proof.
  intros Hu.
  assert (Hm : ∀ v onSuccess,
             mutate edge_function v onSuccess c st
             = (toast (error_toast (Error "Not authenticated")) c, st)).
  { intros v onSuccess. apply mutate_throws. rewrite Hu. reflexivity. }
  split.
  - unfold handleStake. cbv zeta.
    repeat match goal with |- context [if ?b then _ else _] => destruct b end;
      try reflexivity.
    rewrite Hm. reflexivity.
  - unfold handleClaimRewards. cbv zeta. rewrite Hm. reflexivity.
Qed.

Lemma handleClaimRewards_store (c : Component) (u : User) (st : Backend) :
  user c = Some u →
  snd (handleClaimRewards edge_function number_to_string c st)
  = snd (edge_function (invoke_body u daily_reward) st).
Proof.
  intros Hu. unfold handleClaimRewards. cbv zeta. fold daily_reward.
  rewrite mutate_store, Hu, mutationFn_forwards by reflexivity.
  destruct (edge_function (invoke_body u daily_reward) st) as [[d | e] st']; reflexivity.
Qed.

Lemma mutate_user (v : MutationVariables) (t : Toast) (c : Component) (st : Backend) :
  user (fst (mutate edge_function v (toast t) c st)) = user c.
Proof.
  unfold mutate.
  destruct (mutationFn edge_function (user c) (userTokens c) v st) as [[acct | e] st'];
    reflexivity.
Qed.

(** X4: the reward claim looks at nothing the component holds except
    the signed-in user: the cached balance, earlier toasts and earlier
    claims do not matter.  Two claims in a row send the same request
    body to the edge function twice. *)
Theorem claim_twice (c : Component) (u : User) (st : Backend) :
  user c = Some u →
  snd (handleClaimRewards edge_function number_to_string
         (fst (handleClaimRewards edge_function number_to_string c st))
         (snd (handleClaimRewards edge_function number_to_string c st)))
  = snd (edge_function (invoke_body u daily_reward)
           (snd (edge_function (invoke_body u daily_reward) st))).
Proof.
  intros Hu.
  rewrite (handleClaimRewards_store _ u).
  - rewrite (handleClaimRewards_store c u st Hu). reflexivity.
  - unfold handleClaimRewards. cbv zeta. rewrite mutate_user. exact Hu.
Qed.

End HandlerProperties.

Section HandlerFeedback.

Variable edge_function : InvokeBody → Backend → Response FunctionsError UserTokens * Backend.
Variable parseFloat : string → number.
Variable number_to_string : number → string.



End HandlerFeedback.

(** Alice typed 150 with 1000 tokens cached: the stake is proposed. *)
Lemma handleStake_validation_witness :
  ∃ desc onSuccess,
    handleStake Processor.update_user_tokens (λ _, 150%float) (λ _, "150")
      staking_component (store_with_balance 1000%float)
    = mutate Processor.update_user_tokens (stake_of 150%float "staking" desc) onSuccess
        staking_component (store_with_balance 1000%float).
Proof.
  apply (handleStake_validation Processor.update_user_tokens (λ _, 150%float) (λ _, "150")
           staking_component (store_with_balance 1000%float)).
  reflexivity.
Defined.

(** The same click with the button enabled: 150 is at least 100. *)
Lemma enabled_stake_button_witness : (100 <=? 150)%float = true.
Proof.
  apply (enabled_stake_button Processor.update_user_tokens (λ _, 150%float) (λ _, "150")
           false staking_component alice (store_with_balance 1000%float));
    reflexivity.
Defined.

(** A stake typed with nobody signed in leaves the store alone. *)
Lemma handlers_need_user_witness :
  snd (handleStake Processor.update_user_tokens (λ _, 150%float) (λ _, "150")
         anonymous_component (store_with_balance 1000%float))
  = store_with_balance 1000%float.
Proof.
  apply (handlers_need_user Processor.update_user_tokens (λ _, 150%float) (λ _, "150")
           anonymous_component (store_with_balance 1000%float)).
  reflexivity.
Defined.

(** Alice claims twice: her 1000 tokens become 1200. *)
Lemma claim_twice_witness :
  balance (account_of "alice"
    (snd (handleClaimRewards Processor.update_user_tokens (λ _, "100")
            (fst (handleClaimRewards Processor.update_user_tokens (λ _, "100")
                    fresh_component (store_with_balance 1000%float)))
            (snd (handleClaimRewards Processor.update_user_tokens (λ _, "100")
                    fresh_component (store_with_balance 1000%float))))))
  = 1200%float.
Proof.
  rewrite (claim_twice Processor.update_user_tokens (λ _, "100") fresh_component alice
             (store_with_balance 1000%float) eq_refl).
  reflexivity.
Defined.

(** ** More on the account read *)


(** ** More on the transaction listing *)

Lemma page_rows (u : User) (st : Backend) (page : list TokenTransaction) :
  transactions_queryFn (Some u) st (Ok page) →
  ∃ sorted, sorted ≡ₚ rows_of (id u) st
            ∧ StronglySorted newest_first sorted
            ∧ page = entry <$> take 20 sorted.
Proof.
  intros H. destruct (transactions_queryFn_inv u st _ H) as (sorted & [Hp Hs] & Heq).
  exists sorted. inversion Heq. auto.
Qed.

(** X8: the listing shows a user only their own transactions: every
    entry of the page is the entry of a ledger row whose [user_id] is
    the signed-in user's. *)
Theorem listing_own_rows (u : User) (st : Backend) (page : list TokenTransaction)
    (x : TokenTransaction) :
  transactions_queryFn (Some u) st (Ok page) →
  x ∈ page →
  ∃ r, r ∈ token_transactions st ∧ user_id r = id u ∧ entry r = x.
Proof.
  intros H Hx. destruct (page_rows u st page H) as (sorted & Hp & _ & ->).
  apply list_elem_of_fmap in Hx as (r & -> & Hr).
  exists r. apply (subseteq_take 20 sorted) in Hr. rewrite Hp in Hr.
  unfold rows_of in Hr. apply list_elem_of_filter in Hr as [Hu Hin]. auto.
Qed.

(** X9: a user with at most 20 transactions sees all of them: the page
    is a rearrangement of the user's entries, none missing and none
    twice. *)
Theorem listing_complete (u : User) (st : Backend) (page : list TokenTransaction) :
  (length (rows_of (id u) st) ≤ 20)%nat →
  transactions_queryFn (Some u) st (Ok page) →
  page ≡ₚ entry <$> rows_of (id u) st.
Proof.
  intros Hlen H. destruct (page_rows u st page H) as (sorted & Hp & _ & ->).
  rewrite take_ge by (rewrite Hp; exact Hlen). rewrite Hp. reflexivity.
Qed.

(** X10: ties are the only freedom the store has: when the user's rows
    all differ in [created_at], the listing can settle to one page
    only. *)
Theorem listing_deterministic (u : User) (st : Backend) (page1 page2 : list TokenTransaction) :
  (∀ x y, x ∈ rows_of (id u) st → y ∈ rows_of (id u) st →
          created_at (entry x) = created_at (entry y) → x = y) →
  transactions_queryFn (Some u) st (Ok page1) →
  transactions_queryFn (Some u) st (Ok page2) →
  page1 = page2.
Proof.
  intros Hdistinct H1 H2.
  destruct (page_rows u st page1 H1) as (s1 & Hp1 & Hs1 & ->).
  destruct (page_rows u st page2 H2) as (s2 & Hp2 & Hs2 & ->).
  assert (Heq : s1 = s2).
  { apply (StronglySorted_unique_strong newest_first); auto.
    - intros x y Hx Hy Hxy Hyx. rewrite Hp1 in Hx. rewrite Hp2 in Hy.
      apply Hdistinct; auto. unfold newest_first in *. lia.
    - rewrite Hp1, Hp2. reflexivity. }
  rewrite Heq. reflexivity.
Qed.

(** X11: a user with at least one transaction gets a non-empty page,
    and its first entry is a latest one: no transaction of the user has
    a later [created_at]. *)
Theorem listing_latest_first (u : User) (st : Backend) (page : list TokenTransaction) :
  rows_of (id u) st ≠ [] →
  transactions_queryFn (Some u) st (Ok page) →
  ∃ x rest, page = x :: rest
            ∧ ∀ r, r ∈ rows_of (id u) st → (created_at (entry r) <= created_at x)%Z.
Proof.
  intros Hne H. destruct (page_rows u st page H) as (sorted & Hp & Hs & ->).
  destruct sorted as [|r0 tl].
  { apply Permutation_nil_l in Hp. congruence. }
  exists (entry r0), (entry <$> take 19 tl). split; [reflexivity |].
  intros r Hr. rewrite <- Hp in Hr.
  apply StronglySorted_cons in Hs as [Hall _].
  apply elem_of_cons in Hr as [-> | Hr]; [lia |].
  rewrite Forall_forall in Hall. exact (Hall r Hr).
Qed.

(** The page of alice in the store with history: her stake, then her
    first entry; bob's entry is not on it. *)
Lemma history_page :
  transactions_queryFn (Some alice) store_with_history (Ok [stake_entry; first_entry]).
Proof.
  apply (transactions_page alice store_with_history
           [ {| user_id := "alice"; entry := stake_entry |};
             {| user_id := "alice"; entry := first_entry |} ]).
  split; [apply perm_swap |].
  repeat constructor; unfold newest_first; simpl; lia.
Qed.

Lemma history_rows :
  rows_of (id alice) store_with_history
  = [ {| user_id := "alice"; entry := first_entry |};
      {| user_id := "alice"; entry := stake_entry |} ].
Proof. reflexivity. Qed.

Lemma listing_own_rows_witness :
  ∃ r, r ∈ token_transactions store_with_history ∧ user_id r = id alice ∧ entry r = first_entry.
Proof.
  apply (listing_own_rows alice store_with_history [stake_entry; first_entry] first_entry
           history_page).
  right. left.
Defined.

Lemma listing_complete_witness :
  [stake_entry; first_entry] ≡ₚ entry <$> rows_of (id alice) store_with_history.
Proof.
  apply (listing_complete alice store_with_history [stake_entry; first_entry]).
  - rewrite history_rows. simpl. lia.
  - exact history_page.
Defined.

Lemma listing_deterministic_witness :
  [stake_entry; first_entry] = transactions_page_sorted alice store_with_history.
Proof.
  apply (listing_deterministic alice store_with_history).
  - rewrite history_rows. intros x y Hx Hy.
    rewrite !elem_of_cons, elem_of_nil in Hx, Hy.
    destruct Hx as [-> | [-> | []]], Hy as [-> | [-> | []]]; simpl; intros Ht;
      try reflexivity; discriminate.
  - exact history_page.
  - apply transactions_queryFn_total.
Defined.

Lemma listing_latest_first_witness :
  ∃ x rest, [stake_entry; first_entry] = x :: rest
            ∧ ∀ r, r ∈ rows_of (id alice) store_with_history →
                   (created_at (entry r) <= created_at x)%Z.
Proof.
  apply (listing_latest_first alice store_with_history [stake_entry; first_entry]).
  - rewrite history_rows. discriminate.
  - exact history_page.
Defined.

(** ** Rendering of a transaction *)

(** X12: for each of the four transaction types the icon carries the
    colour class [getTransactionColor] gives the amount, different types
    get different colours, and the amount is prefixed with '+' exactly
    when that colour is the green one; any other string falls back to
    the plain 'Coins' icon and the grey text. *)
Theorem rendering_consistent (ty : TransactionType) (t : TokenTransaction) (s : string) :
  className (getTransactionIcon (type_name ty))
    = "h-4 w-4 " ++ getTransactionColor (type_name ty)
  ∧ (∀ ty', getTransactionColor (type_name ty) = getTransactionColor (type_name ty') →
            ty = ty')
  ∧ (amount_prefix t = "+" ↔
     getTransactionColor (type_name (transaction_type t)) = "text-green-600")
  ∧ ((∀ ty', s ≠ type_name ty') →
     getTransactionIcon s = {| icon := "Coins"; className := "h-4 w-4" |}
     ∧ getTransactionColor s = "text-gray-600").
Proof.
  split; [destruct ty; reflexivity |].
  split; [intros ty'; destruct ty, ty'; simpl; intros H; try reflexivity; discriminate |].
  split; [unfold amount_prefix; destruct (transaction_type t); simpl; split;
          intros H; try reflexivity; discriminate |].
  intros Hs. unfold getTransactionIcon, getTransactionColor.
  rewrite (proj2 (String.eqb_neq s "earn") (Hs earn)).
  rewrite (proj2 (String.eqb_neq s "spend") (Hs spend)).
  rewrite (proj2 (String.eqb_neq s "stake") (Hs stake)).
  rewrite (proj2 (String.eqb_neq s "unstake") (Hs unstake)).
  split; reflexivity.
Qed.

(** A type the component does not know is drawn with the fallback. *)
Lemma rendering_consistent_witness :
  getTransactionIcon "refund" = {| icon := "Coins"; className := "h-4 w-4" |}
  ∧ getTransactionColor "refund" = "text-gray-600".
Proof.
  apply (rendering_consistent earn first_entry "refund").
  intros ty'. destruct ty'; discriminate.
Defined.
